(** * Triage turn of the Aura chatbot (app.py)

    A shallow embedding of the turn-processing core of [app.py]: the
    nodes [get_symptom], [classify_symptom], [general_node],
    [emergency_node], [mental_health_node], the router and the compiled
    graph, together with the Python string operations they rely on.

    Text.  A Python [str] is modelled by [string]; its 256 characters stand
    for the code points U+0000 to U+00FF, and [isspace], [lower] follow
    Python's tables on that range.

    Effects.  The nodes mutate one state dictionary and one list object
    (the chat history, which the session shares with the graph) and call
    the language model.  They are written in a state-and-exception monad
    [Run] whose state records the dictionary and the log of model calls; a
    raised exception keeps the mutations made before it, as in Python. *)

From Stdlib Require Import Ascii String.
From stdpp Require Import base strings gmap list.

Local Open Scope string_scope.
Local Open Scope list_scope.
Local Open Scope stdpp_scope.

(** ** Python string operations *)

Module Py.

Definition code (c : ascii) : N := N_of_ascii c.

(** [str.isspace] on one character below U+0100. *)
Definition isspace (c : ascii) : bool :=
  let n := code c in
  ((9 <=? n) && (n <=? 13) || (28 <=? n) && (n <=? 32)
   || (n =? 133) || (n =? 160))%N.

(** [str.lower] on one character below U+0100: A-Z, and the Latin-1
    capitals U+00C0..U+00DE except the multiplication sign U+00D7. *)
Definition lower_char (c : ascii) : ascii :=
  let n := code c in
  if ((65 <=? n) && (n <=? 90)
      || (192 <=? n) && (n <=? 222) && negb (n =? 215))%N
  then ascii_of_N (n + 32) else c.

Fixpoint lower (s : string) : string :=
  match s with
  | EmptyString => EmptyString
  | String c r => String (lower_char c) (lower r)
  end.

Fixpoint lstrip (s : string) : string :=
  match s with
  | EmptyString => EmptyString
  | String c r => if isspace c then lstrip r else s
  end.

Fixpoint rstrip (s : string) : string :=
  match s with
  | EmptyString => EmptyString
  | String c r =>
      match rstrip r with
      | EmptyString => if isspace c then EmptyString else String c EmptyString
      | r' => String c r'
      end
  end.

(** [s.strip()] *)
Definition strip (s : string) : string := rstrip (lstrip s).

(** [needle in hay] *)
Fixpoint contains (needle hay : string) : bool :=
  String.prefix needle hay
  || match hay with
     | EmptyString => false
     | String _ r => contains needle r
     end.

(** [s.replace(old, new)] for one-character [old] and [new]. *)
Fixpoint replace (old new : ascii) (s : string) : string :=
  match s with
  | EmptyString => EmptyString
  | String c r =>
      String (if Ascii.eqb c old then new else c) (replace old new r)
  end.

(** The characters written with a backslash in the source. *)
Definition dquote : string := String (ascii_of_nat 34) EmptyString.
Definition newline : string := String (ascii_of_nat 10) EmptyString.

End Py.


(** ** Messages, the state dictionary and the language model *)

(** [HumanMessage(content=...)] and [AIMessage(content=...)]. *)
Inductive BaseMessage : Type :=
| HumanMessage (text : string)
| AIMessage (text : string).

Definition content (m : BaseMessage) : string :=
  match m with HumanMessage t | AIMessage t => t end.

Definition is_human (m : BaseMessage) : bool :=
  match m with HumanMessage _ => true | AIMessage _ => false end.

(** [class AgentState(TypedDict)]: a key of the dictionary may be absent;
    [chat_history] is always supplied by the caller of the graph. *)
Record AgentState : Type := mkAgentState {
  chat_history : list BaseMessage;
  symptom : option string;
  category : option string
}.

(** What [llm.invoke] is given: a list of messages ([classify_symptom]) or a
    bare prompt ([mental_health_node]). *)
Inductive LlmInput : Type :=
| MessageList (msgs : list BaseMessage)
| Prompt (text : string).

(** The language model, as the turn sees it: from the calls made so far
    and the present input to the [content] of the response, or [None] when
    the call raises. *)
Definition Llm : Type := list LlmInput → LlmInput → option string.

Inductive PyError : Type :=
| IndexError
| KeyError (key : string)
| LlmError.

(** The state of a run: the dictionary and the model calls made, oldest
    first. *)
Record Machine : Type := mkMachine {
  state : AgentState;
  invocations : list LlmInput
}.

Definition Run (A : Type) : Type := Machine → (PyError + A) * Machine.

#[global] Instance run_ret : MRet Run := λ A a m, (inr a, m).

#[global] Instance run_bind : MBind Run := λ A B f c m,
  match c m with
  | (inr a, m') => f a m'
  | (inl e, m') => (inl e, m')
  end.

Definition raise {A : Type} (e : PyError) : Run A := λ m, (inl e, m).

Definition gets {A : Type} (f : AgentState → A) : Run A :=
  λ m, (inr (f (state m)), m).

Definition modify (f : AgentState → AgentState) : Run unit :=
  λ m, (inr tt, mkMachine (f (state m)) (invocations m)).

(** [state[key]] for a key that may be absent. *)
Definition getitem (key : string) (f : AgentState → option string)
  : Run string :=
  v ← gets f;
  match v with
  | Some s => mret s
  | None => raise (KeyError key)
  end.

(** [l[-1]] *)
Definition last_item (l : list BaseMessage) : Run BaseMessage :=
  match last l with
  | Some m => mret m
  | None => raise IndexError
  end.

Definition set_symptom (s : string) : Run unit :=
  modify (λ st, mkAgentState (chat_history st) (Some s) (category st)).

Definition set_category (c : string) : Run unit :=
  modify (λ st, mkAgentState (chat_history st) (symptom st) (Some c)).

(** [state['chat_history'].append(msg)] *)
Definition append_message (msg : BaseMessage) : Run unit :=
  modify (λ st, mkAgentState (chat_history st ++ [msg]) (symptom st)
                             (category st)).

(** ** The fixed texts of the nodes *)

Definition classify_instructions : string :=
  "You are a helpful medical assistant. Classify the user's statement into one of the following categories: "
  +:+ "'General', 'Emergency', or 'Mental Health'. Your response should be a single word. "
  +:+ "For example, if the user says 'I have a fever', you should respond with 'General'. "
  +:+ "If the user says 'I'm having chest pains', you should respond with 'Emergency'. "
  +:+ "If the user says 'I feel anxious and sad', you should respond with 'Mental Health'.".

Definition classify_prompt (symptom_text : string) : string :=
  classify_instructions
  +:+ Py.newline +:+ Py.newline +:+ "User's statement: "
  +:+ Py.dquote +:+ symptom_text +:+ Py.dquote.

(** The text of the message [classify_symptom] appends. *)
Definition thinking_text (category_text : string) : string :=
  "(Thinking... It seems like this might be a "
  +:+ Py.replace "_" " " category_text +:+ " concern.)".

Definition general_text (symptom_text : string) : string :=
  "Based on what you've told me about '" +:+ symptom_text
  +:+ "', this seems like a general health question. "
  +:+ "I'm an AI assistant and not a medical professional. For any health concerns, it's always best to consult with a doctor or a qualified healthcare provider. "
  +:+ "They can give you accurate advice.".

Definition emergency_text (symptom_text : string) : string :=
  "Based on what you've described as '" +:+ symptom_text
  +:+ "', this could be a medical emergency. "
  +:+ "Please do not wait. Contact your local emergency services immediately (like calling 911 in the US, 112 in Europe, or 108 in India) or go to the nearest emergency room. "
  +:+ "Your health is the top priority, and getting immediate help is crucial.".

Definition aura_policy : string :=
  "You are 'Aura', a caring and empathetic mental health companion. Your goal is to provide a safe, supportive, and non-judgmental space for the user. "
  +:+ "You are not a therapist, so you must not give medical advice, diagnoses, or treatment plans. Instead, you should listen, offer comfort, and provide helpful, safe, and general information. "
  +:+ "Always include a disclaimer in your first response that you are an AI and not a substitute for professional help." +:+ Py.newline +:+ Py.newline
  +:+ "Here are your guidelines:" +:+ Py.newline
  +:+ "1.  **Be Empathetic:** Start by acknowledging the user's feelings (e.g., 'It sounds like you're going through a lot,' 'Thank you for sharing that with me.')." +:+ Py.newline
  +:+ "2.  **Encourage Expression:** Ask open-ended questions to help the user explore their feelings (e.g., 'How long have you been feeling this way?', 'Is there anything specific that has been on your mind?')." +:+ Py.newline
  +:+ "3.  **Offer General, Safe Coping Strategies:** Suggest things like mindfulness, deep breathing exercises, journaling, or connecting with friends/family." +:+ Py.newline
  +:+ "4.  **Provide Resources:** If appropriate, suggest seeking professional help and provide information on how to find it (e.g., 'talking to a therapist or counselor can be really helpful. You can find resources through the National Alliance on Mental Illness (NAMI) or by searching for local mental health services.')." +:+ Py.newline
  +:+ "5.  **Maintain a Calm and Gentle Tone:** Use soft and reassuring language." +:+ Py.newline +:+ Py.newline.

(** The prompt of [mental_health_node]: [history_text] is the f-string
    rendering of the list [state['chat_history']], [latest] the [content]
    of its last element. *)
Definition aura_prompt (history_text latest : string) : string :=
  aura_policy
  +:+ "Current Conversation:" +:+ Py.newline
  +:+ history_text +:+ Py.newline +:+ Py.newline
  +:+ "User's latest message: "
  +:+ Py.dquote +:+ latest +:+ Py.dquote +:+ Py.newline +:+ Py.newline
  +:+ "Aura's Response:".

(** Lines 60 to 70 of [classify_symptom]: the category stored for a
    response text. *)
Definition category_of_response (response_content : string) : string :=
  let category := Py.lower (Py.strip response_content) in
  if Py.contains "general" category then "general"
  else if Py.contains "emergency" category then "emergency"
  else if Py.contains "mental" category then "mental_health"
  else "general".

(** ** The nodes, the router and the graph *)

Section Graph.

(** The language model behind [llm]. *)
Variable llm : Llm.

(** The text an f-string gives for the list of messages
    [state['chat_history']]; it is computed by the message library, not by
    this program. *)
Variable render_history : list BaseMessage → string.

(** [llm.invoke(input).content]; the call is logged whether or not it
    raises. *)
Definition llm_invoke (input : LlmInput) : Run string := λ m,
  let m' := mkMachine (state m) (invocations m ++ [input]) in
  match llm (invocations m) input with
  | Some text => (inr text, m')
  | None => (inl LlmError, m')
  end.

Definition get_symptom : Run unit :=
  history ← gets chat_history;
  latest ← last_item history;
  set_symptom (content latest).

Definition classify_symptom : Run unit :=
  symptom_text ← getitem "symptom" symptom;
  response ← llm_invoke (MessageList [HumanMessage (classify_prompt symptom_text)]);
  set_category (category_of_response response);;
  category_text ← getitem "category" category;
  append_message (AIMessage (thinking_text category_text)).

Definition general_node : Run unit :=
  symptom_text ← getitem "symptom" symptom;
  append_message (AIMessage (general_text symptom_text)).

Definition emergency_node : Run unit :=
  symptom_text ← getitem "symptom" symptom;
  append_message (AIMessage (emergency_text symptom_text)).

Definition mental_health_node : Run unit :=
  history ← gets chat_history;
  latest ← last_item history;
  response ← llm_invoke (Prompt (aura_prompt (render_history history) (content latest)));
  append_message (AIMessage response).

Definition symptom_router : Run string := getitem "category" category.

(** [builder.add_node(name, action)] *)
Definition nodes : gmap string (Run unit) :=
  {[ "get_symptom" := get_symptom;
     "classify" := classify_symptom;
     "general" := general_node;
     "emergency" := emergency_node;
     "mental_health_conversation" := mental_health_node ]}.

(** The mapping given to [builder.add_conditional_edges]. *)
Definition path_map : gmap string string :=
  {[ "general" := "general";
     "emergency" := "emergency";
     "mental_health" := "mental_health_conversation" ]}.

Definition run_node (name : string) : Run unit :=
  match nodes !! name with
  | Some action => action
  | None => raise (KeyError name)
  end.

(** The branch taken after [classify]: the router's result is looked up
    in [path_map]; a result outside the mapping is an error. *)
Definition conditional_edge : Run unit :=
  key ← symptom_router;
  match path_map !! key with
  | Some target => run_node target
  | None => raise (KeyError key)
  end.

(** [graph.invoke]: entry point [get_symptom], edge to [classify], the
    conditional edge, and every handler leads to [END]. *)
Definition graph_invoke : Run unit :=
  run_node "get_symptom";;
  run_node "classify";;
  conditional_edge.

(** One turn, as the interface runs it: the graph is started on
    [{"chat_history": messages}], no model call made yet. *)
Definition run_turn (messages : list BaseMessage)
  : (PyError + unit) * Machine :=
  graph_invoke (mkMachine (mkAgentState messages None None) []).

End Graph.

Arguments classify_prompt : simpl never.
Arguments thinking_text : simpl never.
Arguments general_text : simpl never.
Arguments emergency_text : simpl never.
Arguments aura_prompt : simpl never.
Arguments category_of_response : simpl never.

(** ** The categories as the specification names them *)

Inductive Category : Type := general | emergency | mental_health.

(** The value stored under ['category']. *)
Definition category_name (c : Category) : string :=
  match c with
  | general => "general"
  | emergency => "emergency"
  | mental_health => "mental_health"
  end.

(** The specification's parsing rule on the trimmed, lower-cased text:
    ordered, first match wins, with [general] as the fallback. *)
Definition first_match (text : string) : Category :=
  if Py.contains "general" text then general
  else if Py.contains "emergency" text then emergency
  else if Py.contains "mental" text then mental_health
  else general.

(** The handler the specification's router gives for a category. *)
Definition handler (llm : Llm) (render_history : list BaseMessage → string)
    (c : Category) : Run unit :=
  match c with
  | general => general_node
  | emergency => emergency_node
  | mental_health => mental_health_node llm render_history
  end.

(** ** Model doubles used in the concrete examples *)

(** A model that gives its n-th call the n-th entry of [answers] ([None]:
    the call raises), and raises once the script is exhausted. *)
Definition scripted_llm (answers : list (option string)) : Llm :=
  λ made _, default None (answers !! length made).

(** A model that answers every call with the same text. *)
Definition constant_llm (answer : string) : Llm := λ _ _, Some answer.

(** A stand-in for the library's rendering of a message list. *)
Definition plain_render (l : list BaseMessage) : string :=
  String.concat ", " (content <$> l).

Definition greeting : BaseMessage :=
  AIMessage "Hello! I'm Aura. I'm here to listen. How are you feeling today?".

(** ** Machines and inputs named in the statements *)

Definition with_history (m : Machine) (h : list BaseMessage) : Machine :=
  mkMachine (mkAgentState h (symptom (state m)) (category (state m)))
            (invocations m).

Definition logged (m : Machine) (input : LlmInput) : Machine :=
  mkMachine (state m) (invocations m ++ [input]).

Definition classify_input (symptom_text : string) : LlmInput :=
  MessageList [HumanMessage (classify_prompt symptom_text)].

Definition aura_input (render_history : list BaseMessage → string)
    (h : list BaseMessage) (latest : BaseMessage) : LlmInput :=
  Prompt (aura_prompt (render_history h) (content latest)).

(** The machine [classify_symptom] leaves when the model answers [t] to the
    first call of a turn on [messages] whose last message reads [s]. *)
Definition classified (messages : list BaseMessage) (s t : string) : Machine :=
  mkMachine
    (mkAgentState
       (messages ++ [AIMessage (thinking_text (category_of_response t))])
       (Some s) (Some (category_of_response t)))
    [classify_input s].

(** The message [classify_symptom] appends for a category. *)
Definition annotation (c : Category) : BaseMessage :=
  AIMessage (thinking_text (category_name c)).

(** The whole turn, case by case. *)
Definition turn_outcome (llm : Llm) (render_history : list BaseMessage → string)
    (messages : list BaseMessage) : (PyError + unit) * Machine :=
  match last messages with
  | None => (inl IndexError, mkMachine (mkAgentState messages None None) [])
  | Some x =>
      let s := content x in
      match llm [] (classify_input s) with
      | None =>
          (inl LlmError,
           mkMachine (mkAgentState messages (Some s) None) [classify_input s])
      | Some t =>
          let c := first_match (Py.lower (Py.strip t)) in
          let annotated := messages ++ [annotation c] in
          let filled h := mkAgentState h (Some s) (Some (category_name c)) in
          match c with
          | general =>
              (inr tt,
               mkMachine (filled (annotated ++ [AIMessage (general_text s)]))
                         [classify_input s])
          | emergency =>
              (inr tt,
               mkMachine (filled (annotated ++ [AIMessage (emergency_text s)]))
                         [classify_input s])
          | mental_health =>
              let input := aura_input render_history annotated (annotation c) in
              match llm [classify_input s] input with
              | Some reply =>
                  (inr tt,
                   mkMachine (filled (annotated ++ [AIMessage reply]))
                             [classify_input s; input])
              | None =>
                  (inl LlmError,
                   mkMachine (filled annotated) [classify_input s; input])
              end
          end
      end
  end.

(** The reply of the fixed-template handler of a category. *)
Definition template_reply (c : Category) (s : string) : BaseMessage :=
  match c with
  | emergency => AIMessage (emergency_text s)
  | _ => AIMessage (general_text s)
  end.

(** ** Concrete inputs of the examples *)

Definition before_classify (s : string) : Machine :=
  mkMachine (mkAgentState [greeting; HumanMessage s] (Some s) None) [].

Definition both_words : string := "Emergency, not General".

Definition anxious_turn : list BaseMessage :=
  [greeting; HumanMessage "I feel anxious and sad"].

Definition fever_turn : list BaseMessage :=
  [greeting; HumanMessage "I have a fever"].

Definition mental_annotation : string :=
  "(Thinking... It seems like this might be a mental health concern.)".

Definition lowercase_general_annotation : string :=
  "(Thinking... it seems like this might be a general concern.)".

Definition persona_reply : string :=
  "It sounds like you're carrying a lot right now.".

(** ** The Streamlit script

    One run of the script, top to bottom, as a function of what it finds:
    the model client (absent when its construction raised), the
    ["messages"] entry of [st.session_state] (absent in a new session) and
    what [st.chat_input] returns.  The page records the session entry the
    run leaves, the [st.error] and [st.chat_message(...).write(...)] calls
    in order, the exception that ended the run if any, and the model calls.
    The list in the session entry is the list object the graph appends to. *)

Definition init_error_text : string :=
  "Error initializing the Language Model. Make sure your GOOGLE_API_KEY is set in Streamlit secrets.".

Inductive Element : Type :=
| ErrorBox (text : string)
| ChatWrite (name text : string).

(** The body of the loop over [st.session_state.messages]. *)
Definition draw (msg : BaseMessage) : Element :=
  match msg with
  | AIMessage text => ChatWrite "ai" text
  | HumanMessage text => ChatWrite "user" text
  end.

Record Page : Type := mkPage {
  messages_after : option (list BaseMessage);
  elements : list Element;
  uncaught : option PyError;
  model_calls : list LlmInput
}.

(** The truth value of a [str]. *)
Definition str_truth (s : string) : bool :=
  match s with EmptyString => false | String _ _ => true end.

Definition script (client : option Llm)
    (render_history : list BaseMessage → string)
    (session : option (list BaseMessage)) (chat_input : option string)
  : Page :=
  match client with
  | None => mkPage session [ErrorBox init_error_text] None []
  | Some llm =>
      let messages := default [greeting] session in
      let drawn := draw <$> messages in
      match chat_input with
      | Some prompt =>
          if str_truth prompt then
            let messages := messages ++ [HumanMessage prompt] in
            let drawn := drawn ++ [ChatWrite "user" prompt] in
            match run_turn llm render_history messages with
            | (inr _, final) =>
                let history := chat_history (state final) in
                match last history with
                | Some ai_response_message =>
                    mkPage (Some history)
                      (drawn ++ [ChatWrite "ai" (content ai_response_message)])
                      None (invocations final)
                | None =>
                    mkPage (Some history) drawn (Some IndexError)
                           (invocations final)
                end
            | (inl e, final) =>
                mkPage (Some (chat_history (state final))) drawn (Some e)
                       (invocations final)
            end
          else mkPage (Some messages) drawn None []
      | None => mkPage (Some messages) drawn None []
      end
  end.

(** The session entry after a series of runs, each with its own client and
    chat input. *)
Fixpoint session_after (render_history : list BaseMessage → string)
    (session : option (list BaseMessage))
    (runs : list (option Llm * option string))
  : option (list BaseMessage) :=
  match runs with
  | [] => session
  | (client, chat_input) :: rest =>
      session_after render_history
        (messages_after (script client render_history session chat_input))
        rest
  end.

(** The prompts that reach the graph in a series of runs. *)
Fixpoint submitted (runs : list (option Llm * option string)) : list string :=
  match runs with
  | [] => []
  | (Some _, Some prompt) :: rest =>
      if str_truth prompt then prompt :: submitted rest else submitted rest
  | _ :: rest => submitted rest
  end.

(** The contents of the user messages of a chat history, in order. *)
Definition user_texts (l : list BaseMessage) : list string :=
  content <$> List.filter is_human l.

(** ** Predicates on texts used in the statements *)

(** Every character of [s] is whitespace for [str.strip]. *)
Fixpoint all_space (s : string) : bool :=
  match s with
  | EmptyString => true
  | String c r => Py.isspace c && all_space r
  end.

(** [s] is not empty and its first character is not whitespace. *)
Definition starts_visible (s : string) : bool :=
  match s with
  | EmptyString => false
  | String c _ => negb (Py.isspace c)
  end.

(** [s] is not empty and its last character is not whitespace. *)
Fixpoint ends_visible (s : string) : bool :=
  match s with
  | EmptyString => false
  | String c EmptyString => negb (Py.isspace c)
  | String _ r => ends_visible r
  end.

(** ** Equations of the nodes *)

Ltac run_steps :=
  cbv [mbind mret run_bind run_ret raise gets modify getitem last_item
       set_symptom set_category append_message llm_invoke];
  cbn [state invocations chat_history symptom category fst snd].

Lemma category_of_response_name (t : string) :
  category_of_response t = category_name (first_match (Py.lower (Py.strip t))).
Proof.
  unfold category_of_response, first_match.
  repeat case_match; reflexivity.
Qed.

Lemma get_symptom_eq (m : Machine) :
  get_symptom m =
  match last (chat_history (state m)) with
  | Some x =>
      (inr tt, mkMachine (mkAgentState (chat_history (state m))
                                       (Some (content x))
                                       (category (state m)))
                         (invocations m))
  | None => (inl IndexError, m)
  end.
Proof.
  unfold get_symptom. run_steps.
  destruct (last (chat_history (state m))); reflexivity.
Qed.

Lemma classify_symptom_eq (llm : Llm) (m : Machine) (s : string) :
  symptom (state m) = Some s →
  classify_symptom llm m =
  match llm (invocations m) (classify_input s) with
  | Some t =>
      (inr tt,
       mkMachine (mkAgentState
                    (chat_history (state m)
                       ++ [AIMessage (thinking_text (category_of_response t))])
                    (Some s) (Some (category_of_response t)))
                 (invocations m ++ [classify_input s]))
  | None => (inl LlmError, logged m (classify_input s))
  end.
Proof.
  intros Hs.
  unfold classify_symptom, classify_input, logged. run_steps. rewrite Hs.
  destruct (llm _ _); cbn [state symptom]; [rewrite Hs|]; reflexivity.
Qed.

Lemma general_node_eq (m : Machine) (s : string) :
  symptom (state m) = Some s →
  general_node m =
  (inr tt, with_history m (chat_history (state m) ++ [AIMessage (general_text s)])).
Proof.
  intros Hs. unfold general_node. run_steps. rewrite Hs. reflexivity.
Qed.

Lemma emergency_node_eq (m : Machine) (s : string) :
  symptom (state m) = Some s →
  emergency_node m =
  (inr tt, with_history m (chat_history (state m) ++ [AIMessage (emergency_text s)])).
Proof.
  intros Hs. unfold emergency_node. run_steps. rewrite Hs. reflexivity.
Qed.

Lemma mental_health_node_eq (llm : Llm) (render_history : list BaseMessage → string)
    (m : Machine) :
  mental_health_node llm render_history m =
  match last (chat_history (state m)) with
  | None => (inl IndexError, m)
  | Some x =>
      let input := aura_input render_history (chat_history (state m)) x in
      match llm (invocations m) input with
      | Some reply =>
          (inr tt, with_history (logged m input)
                     (chat_history (state m) ++ [AIMessage reply]))
      | None => (inl LlmError, logged m input)
      end
  end.
Proof.
  unfold mental_health_node, aura_input. run_steps.
  destruct (last (chat_history (state m))); [|reflexivity].
  destruct (llm _ _); reflexivity.
Qed.

Lemma symptom_router_eq (m : Machine) (c : string) :
  category (state m) = Some c → symptom_router m = (inr c, m).
Proof.
  intros Hc. unfold symptom_router. run_steps. rewrite Hc. reflexivity.
Qed.

Lemma path_map_name (c : Category) :
  path_map !! category_name c =
  Some match c with
       | general => "general"
       | emergency => "emergency"
       | mental_health => "mental_health_conversation"
       end.
Proof. destruct c; reflexivity. Qed.

Lemma path_map_targets (k target : string) :
  path_map !! k = Some target →
  ∃ c, k = category_name c
       ∧ target = match c with
                  | general => "general"
                  | emergency => "emergency"
                  | mental_health => "mental_health_conversation"
                  end.
Proof.
  unfold path_map. intros H.
  apply lookup_insert_Some in H as [[<- <-]|[_ H]]; [now exists general|].
  apply lookup_insert_Some in H as [[<- <-]|[_ H]]; [now exists emergency|].
  apply lookup_singleton_Some in H as [<- <-]. now exists mental_health.
Qed.

Lemma run_node_handler (llm : Llm) (render_history : list BaseMessage → string)
    (c : Category) :
  run_node llm render_history
    match c with
    | general => "general"
    | emergency => "emergency"
    | mental_health => "mental_health_conversation"
    end = handler llm render_history c.
Proof. destruct c; reflexivity. Qed.

Lemma conditional_edge_eq (llm : Llm) (render_history : list BaseMessage → string)
    (m : Machine) (c : Category) :
  category (state m) = Some (category_name c) →
  conditional_edge llm render_history m = handler llm render_history c m.
Proof.
  intros Hc. unfold conditional_edge.
  change ((symptom_router ≫= _) m) with
    (run_bind _ _
       (λ key, match path_map !! key with
               | Some target => run_node llm render_history target
               | None => raise (KeyError key)
               end) symptom_router m).
  unfold run_bind. rewrite (symptom_router_eq m _ Hc), path_map_name.
  now rewrite run_node_handler.
Qed.

Lemma run_turn_eq (llm : Llm) (render_history : list BaseMessage → string)
    (messages : list BaseMessage) :
  run_turn llm render_history messages =
  match last messages with
  | None => (inl IndexError, mkMachine (mkAgentState messages None None) [])
  | Some x =>
      match llm [] (classify_input (content x)) with
      | None =>
          (inl LlmError,
           mkMachine (mkAgentState messages (Some (content x)) None)
                     [classify_input (content x)])
      | Some t =>
          handler llm render_history
            (first_match (Py.lower (Py.strip t)))
            (classified messages (content x) t)
      end
  end.
Proof.
  unfold run_turn, graph_invoke.
  change (run_node llm render_history "get_symptom") with get_symptom.
  change (run_node llm render_history "classify") with (classify_symptom llm).
  cbv [mbind run_bind]. rewrite get_symptom_eq. cbn [state chat_history].
  destruct (last messages) as [x|]; [|reflexivity].
  rewrite (classify_symptom_eq llm _ (content x)) by reflexivity.
  cbn [state invocations chat_history category].
  destruct (llm [] (classify_input (content x))) as [t|]; [|reflexivity].
  rewrite (conditional_edge_eq llm render_history _
             (first_match (Py.lower (Py.strip t)))).
  - reflexivity.
  - cbn [state category]. now rewrite category_of_response_name.
Qed.

Lemma run_turn_outcome (llm : Llm) (render_history : list BaseMessage → string)
    (messages : list BaseMessage) :
  run_turn llm render_history messages
  = turn_outcome llm render_history messages.
Proof.
  rewrite run_turn_eq. unfold turn_outcome.
  destruct (last messages) as [x|]; [|reflexivity].
  destruct (llm [] (classify_input (content x))) as [t|]; [|reflexivity].
  cbv zeta. unfold classified, annotation.
  rewrite category_of_response_name.
  destruct (first_match (Py.lower (Py.strip t))); cbn [handler].
  - now rewrite (general_node_eq _ (content x)).
  - now rewrite (emergency_node_eq _ (content x)).
  - rewrite mental_health_node_eq. cbn [state chat_history invocations].
    rewrite last_snoc. cbv zeta.
    destruct (llm _ _); reflexivity.
Qed.

(** ** The classifier *)

(** C1, as stated, fails: the response "Emergency, not General" contains
    "emergency" once trimmed and lower-cased, yet [classify_symptom] stores
    the category "general", because "general" is tested first. *)
Lemma emergency_shadowed_by_general :
  Py.contains "emergency" (Py.lower (Py.strip both_words)) = true
  ∧ category (state (snd (classify_symptom (scripted_llm [Some both_words])
                            (before_classify "I feel odd"))))
    = Some "general"
  ∧ category (state (snd (classify_symptom (scripted_llm [Some both_words])
                            (before_classify "I feel odd"))))
    ≠ Some "emergency".
Proof.
  split; [reflexivity|]. split; [reflexivity|]. discriminate.
Qed.

(** C1, amended: when the trimmed, lower-cased response contains
    "emergency" and does not contain "general", [classify_symptom] returns
    and stores the category "emergency", whether or not "mental" occurs in
    the text. *)
Theorem classify_emergency_without_general
    (llm : Llm) (m : Machine) (s t : string) :
  symptom (state m) = Some s →
  llm (invocations m) (classify_input s) = Some t →
  Py.contains "emergency" (Py.lower (Py.strip t)) = true →
  Py.contains "general" (Py.lower (Py.strip t)) = false →
  ∃ m', classify_symptom llm m = (inr tt, m')
        ∧ category (state m') = Some "emergency".
Proof.
  intros Hs Ht He Hg. rewrite (classify_symptom_eq llm m s Hs), Ht.
  eexists; split; [reflexivity|]. cbn [state category].
  unfold category_of_response. now rewrite Hg, He.
Qed.

Lemma classify_emergency_without_general_witness :
  ∃ m', classify_symptom (scripted_llm [Some "  Mental EMERGENCY. "])
          (before_classify "I'm having chest pains") = (inr tt, m')
        ∧ category (state m') = Some "emergency".
Proof.
  apply (classify_emergency_without_general
           (scripted_llm [Some "  Mental EMERGENCY. "])
           (before_classify "I'm having chest pains")
           "I'm having chest pains" "  Mental EMERGENCY. ");
    reflexivity.
Defined.

(** C2: whatever text the model returns for the classification call,
    [classify_symptom] returns and stores the name of the category that the
    ordered rule (general, then emergency, then mental, else general) gives
    on the trimmed, lower-cased text; a text with none of the three words
    gives "general". *)
Theorem classify_first_match (llm : Llm) (m : Machine) (s t : string) :
  symptom (state m) = Some s →
  llm (invocations m) (classify_input s) = Some t →
  ∃ m', classify_symptom llm m = (inr tt, m')
        ∧ category (state m')
          = Some (category_name (first_match (Py.lower (Py.strip t))))
        ∧ (Py.contains "general" (Py.lower (Py.strip t)) = false →
           Py.contains "emergency" (Py.lower (Py.strip t)) = false →
           Py.contains "mental" (Py.lower (Py.strip t)) = false →
           category (state m') = Some "general").
Proof.
  intros Hs Ht. rewrite (classify_symptom_eq llm m s Hs), Ht.
  eexists; split; [reflexivity|]. cbn [state category]. split.
  - now rewrite category_of_response_name.
  - intros Hg He Hm. unfold category_of_response. now rewrite Hg, He, Hm.
Qed.

Lemma classify_first_match_witness :
  ∃ m', classify_symptom (scripted_llm [Some "I'm not sure"])
          (before_classify "I have a fever") = (inr tt, m')
        ∧ category (state m')
          = Some (category_name
                    (first_match (Py.lower (Py.strip "I'm not sure"))))
        ∧ (Py.contains "general" (Py.lower (Py.strip "I'm not sure")) = false →
           Py.contains "emergency" (Py.lower (Py.strip "I'm not sure")) = false →
           Py.contains "mental" (Py.lower (Py.strip "I'm not sure")) = false →
           category (state m') = Some "general").
Proof.
  apply (classify_first_match (scripted_llm [Some "I'm not sure"])
           (before_classify "I have a fever") "I have a fever" "I'm not sure");
    reflexivity.
Defined.

(** ** Failures of the language model *)

Lemma category_name_inj (c d : Category) :
  category_name c = category_name d → c = d.
Proof. destruct c, d; simpl; congruence. Qed.

(** C3, as stated, fails: when the classification call answers
    "Mental Health" and the persona call raises, the turn fails with the
    model's error, and the chat history holds the prior messages followed by
    the annotation alone, one message more than before: neither nothing nor
    annotation and reply. *)
Lemma persona_failure_leaves_annotation :
  fst (run_turn (scripted_llm [Some "Mental Health"; None]) plain_render
         anxious_turn) = inl LlmError
  ∧ chat_history (state (snd (run_turn (scripted_llm [Some "Mental Health"; None])
                                plain_render anxious_turn)))
    = anxious_turn ++ [AIMessage mental_annotation]
  ∧ chat_history (state (snd (run_turn (scripted_llm [Some "Mental Health"; None])
                                plain_render anxious_turn)))
    ≠ anxious_turn
  ∧ length (chat_history (state (snd (run_turn
                                        (scripted_llm [Some "Mental Health"; None])
                                        plain_render anxious_turn))))
    = length anxious_turn + 1.
Proof.
  split; [reflexivity|]. split; [reflexivity|].
  split; [discriminate|reflexivity].
Qed.

(** C3, amended: a raising model call fails the turn with the model's
    error.  When the classification call raises, the chat history is the
    prior one; when the classification is mental health and the persona call
    raises, the chat history is the prior one followed by the annotation.
    An empty response text is no failure: the turn completes on the general
    path. *)
Theorem llm_failure_outcomes
    (llm : Llm) (render_history : list BaseMessage → string)
    (messages : list BaseMessage) (x : BaseMessage) :
  last messages = Some x →
  (llm [] (classify_input (content x)) = None →
   ∃ m', run_turn llm render_history messages = (inl LlmError, m')
         ∧ chat_history (state m') = messages)
  ∧ (∀ t, llm [] (classify_input (content x)) = Some t →
          first_match (Py.lower (Py.strip t)) = mental_health →
          llm [classify_input (content x)]
              (aura_input render_history
                 (messages ++ [annotation mental_health])
                 (annotation mental_health)) = None →
          ∃ m', run_turn llm render_history messages = (inl LlmError, m')
                ∧ chat_history (state m')
                  = messages ++ [annotation mental_health])
  ∧ (llm [] (classify_input (content x)) = Some EmptyString →
     ∃ m', run_turn llm render_history messages = (inr tt, m')
           ∧ chat_history (state m')
             = messages ++ [annotation general;
                            AIMessage (general_text (content x))]).
Proof.
  intros Hx. rewrite run_turn_outcome. unfold turn_outcome. rewrite Hx.
  cbv zeta. repeat split.
  - intros ->. eexists; split; reflexivity.
  - intros t -> -> ->. eexists; split; reflexivity.
  - intros ->. change (first_match (Py.lower (Py.strip EmptyString))) with general.
    cbv iota. eexists; split; [reflexivity|]. cbn [state chat_history].
    now rewrite <- app_assoc.
Qed.

Lemma llm_failure_outcomes_witness :
  (∃ m', run_turn (scripted_llm [None]) plain_render anxious_turn
         = (inl LlmError, m')
         ∧ chat_history (state m') = anxious_turn)
  ∧ (∃ m', run_turn (scripted_llm [Some "Mental Health"; None]) plain_render
             anxious_turn = (inl LlmError, m')
           ∧ chat_history (state m')
             = anxious_turn ++ [annotation mental_health])
  ∧ (∃ m', run_turn (scripted_llm [Some EmptyString]) plain_render anxious_turn
           = (inr tt, m')
           ∧ chat_history (state m')
             = anxious_turn ++ [annotation general;
                                AIMessage (general_text "I feel anxious and sad")]).
Proof.
  split; [|split].
  - apply (proj1 (llm_failure_outcomes (scripted_llm [None]) plain_render
                    anxious_turn (HumanMessage "I feel anxious and sad")
                    eq_refl)).
    reflexivity.
  - apply (proj1 (proj2 (llm_failure_outcomes
                           (scripted_llm [Some "Mental Health"; None])
                           plain_render anxious_turn
                           (HumanMessage "I feel anxious and sad") eq_refl))
             "Mental Health"); reflexivity.
  - apply (proj2 (proj2 (llm_failure_outcomes
                           (scripted_llm [Some EmptyString])
                           plain_render anxious_turn
                           (HumanMessage "I feel anxious and sad") eq_refl))).
    reflexivity.
Defined.

(** ** The precondition on the prior transcript *)

(** C4, as stated, fails: a chat history that ends in an assistant message
    is not rejected; the turn runs to its end and calls the model once. *)
Lemma assistant_last_message_accepted :
  is_human <$> last [greeting] = Some false
  ∧ fst (run_turn (scripted_llm [Some "General"]) plain_render [greeting])
    = inr tt
  ∧ length (invocations (snd (run_turn (scripted_llm [Some "General"])
                                plain_render [greeting]))) = 1.
Proof. repeat split. Qed.

(** C4, amended: on an empty chat history the turn fails with
    [IndexError] and no model call is made; on a non-empty chat history,
    whoever wrote its last message, the content of that message is
    classified: the first model call is the classification prompt built
    from it. *)
Theorem empty_history_rejected
    (llm : Llm) (render_history : list BaseMessage → string) :
  (fst (run_turn llm render_history []) = inl IndexError
   ∧ invocations (snd (run_turn llm render_history [])) = []
   ∧ chat_history (state (snd (run_turn llm render_history []))) = [])
  ∧ ∀ messages x, ∃ rest,
      invocations (snd (run_turn llm render_history (messages ++ [x])))
      = classify_input (content x) :: rest.
Proof.
  split; [repeat split|].
  intros messages x. rewrite run_turn_outcome. unfold turn_outcome.
  rewrite last_snoc. cbv zeta.
  destruct (llm [] _) as [t|]; [|eexists; reflexivity].
  destruct (first_match _); try (eexists; reflexivity).
  destruct (llm _ _); eexists; reflexivity.
Qed.

(** ** The mental-health handler *)

Lemma append_cancel_l (p a b : string) : p +:+ a = p +:+ b → a = b.
Proof. induction p as [|c p IH]; simpl; [tauto|]. intros [= H]. auto. Qed.

(** C5 on the turn "I feel anxious and sad", classified "Mental Health":
    the turn makes two model calls and appends the second response
    unchanged, but the persona prompt repeats, as the user's latest message,
    the content of the last element of the chat history, which by then is
    the classifier's annotation; the prompt differs from the one that repeats
    the user's message. *)
Theorem aura_prompt_repeats_annotation
    (render_history : list BaseMessage → string) :
  run_turn (scripted_llm [Some "Mental Health"; Some persona_reply])
    render_history anxious_turn
  = (inr tt,
     mkMachine
       (mkAgentState
          (anxious_turn ++ [AIMessage mental_annotation; AIMessage persona_reply])
          (Some "I feel anxious and sad") (Some "mental_health"))
       [classify_input "I feel anxious and sad";
        Prompt (aura_prompt
                  (render_history (anxious_turn ++ [AIMessage mental_annotation]))
                  mental_annotation)])
  ∧ aura_prompt (render_history (anxious_turn ++ [AIMessage mental_annotation]))
      mental_annotation
    ≠ aura_prompt (render_history (anxious_turn ++ [AIMessage mental_annotation]))
        "I feel anxious and sad".
Proof.
  split.
  - rewrite run_turn_outcome. reflexivity.
  - unfold aura_prompt. intros H.
    do 7 apply append_cancel_l in H. discriminate H.
Qed.

(** ** The shape of a successful turn *)

(** C6: a turn on a non-empty chat history with a model that answers every
    call returns; and whenever a turn returns, for whichever category, its
    chat history is the prior one, unchanged and in order, followed by the
    annotation of the stored category and one assistant reply. *)
Theorem turn_appends_annotation_and_reply
    (llm : Llm) (render_history : list BaseMessage → string)
    (messages : list BaseMessage) :
  (messages ≠ [] → (∀ made input, llm made input ≠ None) →
   ∃ m', run_turn llm render_history messages = (inr tt, m'))
  ∧ (∀ m', run_turn llm render_history messages = (inr tt, m') →
       ∃ c reply,
         category (state m') = Some (category_name c)
         ∧ chat_history (state m')
           = messages ++ [annotation c; AIMessage reply]
         ∧ length (chat_history (state m')) = length messages + 2).
Proof.
  rewrite run_turn_outcome. unfold turn_outcome. split.
  - intros Hne Hllm.
    destruct (last messages) as [x|] eqn:Hx;
      [|apply last_None in Hx; contradiction].
    cbv zeta.
    destruct (llm [] _) as [t|] eqn:Ht; [|now apply Hllm in Ht].
    destruct (first_match _); try (eexists; reflexivity).
    destruct (llm [_] _) as [r|] eqn:Hr; [|now apply Hllm in Hr].
    eexists; reflexivity.
  - intros m'. destruct (last messages) as [x|]; [|discriminate].
    cbv zeta. destruct (llm [] _) as [t|]; [|discriminate].
    destruct (first_match _) eqn:Hc.
    + intros [= <-]. exists general, (general_text (content x)).
      cbn [state category chat_history].
      rewrite <- app_assoc, length_app. auto.
    + intros [= <-]. exists emergency, (emergency_text (content x)).
      cbn [state category chat_history].
      rewrite <- app_assoc, length_app. auto.
    + destruct (llm [_] _) as [r|]; [|discriminate].
      intros [= <-]. exists mental_health, r.
      cbn [state category chat_history].
      rewrite <- app_assoc, length_app. auto.
Qed.

Lemma turn_appends_annotation_and_reply_witness :
  (∃ m', run_turn (constant_llm "Emergency") plain_render
           [greeting; HumanMessage "I'm having chest pains"] = (inr tt, m'))
  ∧ ∃ c reply,
      category (state (snd (run_turn (scripted_llm [Some "General"])
                              plain_render fever_turn)))
      = Some (category_name c)
      ∧ chat_history (state (snd (run_turn (scripted_llm [Some "General"])
                                    plain_render fever_turn)))
        = fever_turn ++ [annotation c; AIMessage reply]
      ∧ length (chat_history (state (snd (run_turn (scripted_llm [Some "General"])
                                            plain_render fever_turn))))
        = length fever_turn + 2.
Proof.
  split.
  - apply (proj1 (turn_appends_annotation_and_reply
                    (constant_llm "Emergency") plain_render
                    [greeting; HumanMessage "I'm having chest pains"])).
    + discriminate.
    + discriminate.
  - apply (proj2 (turn_appends_annotation_and_reply
                    (scripted_llm [Some "General"]) plain_render fever_turn)).
    reflexivity.
Defined.

(** ** The router *)

Lemma classify_symptom_returns (llm : Llm) (m m' : Machine) :
  classify_symptom llm m = (inr tt, m') →
  ∃ s t, symptom (state m) = Some s
         ∧ llm (invocations m) (classify_input s) = Some t
         ∧ m' = mkMachine
                  (mkAgentState
                     (chat_history (state m)
                        ++ [AIMessage (thinking_text (category_of_response t))])
                     (Some s) (Some (category_of_response t)))
                  (invocations m ++ [classify_input s]).
Proof.
  destruct (symptom (state m)) as [s|] eqn:Hs.
  - rewrite (classify_symptom_eq llm m s Hs).
    destruct (llm _ _) as [t|] eqn:Ht; [|discriminate].
    intros [= <-]. now exists s, t.
  - unfold classify_symptom. run_steps. rewrite Hs. discriminate.
Qed.

(** C7: once [classify_symptom] has returned, the stored category is the
    name of one of general, emergency, mental_health; the router returns it
    and leaves the machine as it was; the mapping of the conditional edge
    has an entry for it, and the branch runs the General, Emergency or
    Mental-Health handler accordingly, never its error case. *)
Theorem router_total
    (llm : Llm) (render_history : list BaseMessage → string)
    (m m' : Machine) :
  classify_symptom llm m = (inr tt, m') →
  ∃ c, category (state m') = Some (category_name c)
       ∧ symptom_router m' = (inr (category_name c), m')
       ∧ path_map !! category_name c
         = Some match c with
                | general => "general"
                | emergency => "emergency"
                | mental_health => "mental_health_conversation"
                end
       ∧ conditional_edge llm render_history m'
         = match c with
           | general => general_node m'
           | emergency => emergency_node m'
           | mental_health => mental_health_node llm render_history m'
           end.
Proof.
  intros H. apply classify_symptom_returns in H as (s & t & _ & _ & ->).
  exists (first_match (Py.lower (Py.strip t))).
  assert (Hc : category_of_response t
               = category_name (first_match (Py.lower (Py.strip t))))
    by apply category_of_response_name.
  cbn [state category]. rewrite Hc. split; [reflexivity|].
  split; [now apply symptom_router_eq|]. split; [apply path_map_name|].
  rewrite (conditional_edge_eq llm render_history _
             (first_match (Py.lower (Py.strip t)))) by reflexivity.
  now destruct (first_match _).
Qed.

Lemma router_total_witness :
  ∃ c, category (state (snd (classify_symptom (scripted_llm [Some "Mental Health"])
                               (before_classify "I feel anxious and sad"))))
       = Some (category_name c)
       ∧ symptom_router (snd (classify_symptom (scripted_llm [Some "Mental Health"])
                                (before_classify "I feel anxious and sad")))
         = (inr (category_name c),
            snd (classify_symptom (scripted_llm [Some "Mental Health"])
                   (before_classify "I feel anxious and sad")))
       ∧ path_map !! category_name c
         = Some match c with
                | general => "general"
                | emergency => "emergency"
                | mental_health => "mental_health_conversation"
                end
       ∧ conditional_edge (scripted_llm [Some "Mental Health"]) plain_render
           (snd (classify_symptom (scripted_llm [Some "Mental Health"])
                   (before_classify "I feel anxious and sad")))
         = match c with
           | general =>
               general_node
                 (snd (classify_symptom (scripted_llm [Some "Mental Health"])
                         (before_classify "I feel anxious and sad")))
           | emergency =>
               emergency_node
                 (snd (classify_symptom (scripted_llm [Some "Mental Health"])
                         (before_classify "I feel anxious and sad")))
           | mental_health =>
               mental_health_node (scripted_llm [Some "Mental Health"])
                 plain_render
                 (snd (classify_symptom (scripted_llm [Some "Mental Health"])
                         (before_classify "I feel anxious and sad")))
           end.
Proof.
  apply (router_total (scripted_llm [Some "Mental Health"]) plain_render
           (before_classify "I feel anxious and sad")).
  reflexivity.
Defined.

(** ** The general and emergency handlers *)

(** C8: [general_node] and [emergency_node] append one assistant message,
    a fixed text around the symptom, and leave the log of model calls as it
    was; the reply depends on the symptom alone; and a turn that returns
    with category general or emergency has made exactly one model call, the
    classifier's, and ends with that handler's reply. *)
Theorem fixed_replies_without_llm
    (llm : Llm) (render_history : list BaseMessage → string) :
  (∀ m s, symptom (state m) = Some s →
     general_node m
     = (inr tt,
        mkMachine (mkAgentState
                     (chat_history (state m) ++ [AIMessage (general_text s)])
                     (symptom (state m)) (category (state m)))
                  (invocations m))
     ∧ emergency_node m
       = (inr tt,
          mkMachine (mkAgentState
                       (chat_history (state m) ++ [AIMessage (emergency_text s)])
                       (symptom (state m)) (category (state m)))
                    (invocations m)))
  ∧ (∃ before after, ∀ s, general_text s = before +:+ s +:+ after)
  ∧ (∃ before after, ∀ s, emergency_text s = before +:+ s +:+ after)
  ∧ (∀ m1 m2 s, symptom (state m1) = Some s → symptom (state m2) = Some s →
       last (chat_history (state (snd (general_node m1))))
       = last (chat_history (state (snd (general_node m2))))
       ∧ last (chat_history (state (snd (emergency_node m1))))
         = last (chat_history (state (snd (emergency_node m2)))))
  ∧ (∀ messages m' c,
       run_turn llm render_history messages = (inr tt, m') →
       category (state m') = Some (category_name c) →
       c ≠ mental_health →
       ∃ x, last messages = Some x
            ∧ invocations m' = [classify_input (content x)]
            ∧ last (chat_history (state m'))
              = Some (template_reply c (content x))).
Proof.
  split; [|split; [|split; [|split]]].
  - intros m s Hs. split.
    + now rewrite (general_node_eq m s Hs).
    + now rewrite (emergency_node_eq m s Hs).
  - eexists _, _. intros s. unfold general_text. reflexivity.
  - eexists _, _. intros s. unfold emergency_text. reflexivity.
  - intros m1 m2 s H1 H2.
    rewrite (general_node_eq m1 s H1), (general_node_eq m2 s H2),
      (emergency_node_eq m1 s H1), (emergency_node_eq m2 s H2).
    cbn [snd with_history state chat_history]. now rewrite !last_snoc.
  - intros messages m' c. rewrite run_turn_outcome. unfold turn_outcome.
    destruct (last messages) as [x|]; [|discriminate]. cbv zeta.
    destruct (llm [] _) as [t|]; [|discriminate].
    destruct (first_match _) eqn:Hc.
    + intros [= <-]. cbn [state category chat_history invocations].
      intros [= Hn]. apply (category_name_inj general c) in Hn as <-.
      intros _. exists x. now rewrite last_snoc.
    + intros [= <-]. cbn [state category chat_history invocations].
      intros [= Hn]. apply (category_name_inj emergency c) in Hn as <-.
      intros _. exists x. now rewrite last_snoc.
    + destruct (llm [_] _); [|discriminate].
      intros [= <-]. cbn [state category].
      intros [= Hn]. apply (category_name_inj mental_health c) in Hn as <-.
      congruence.
Qed.

Lemma fixed_replies_without_llm_witness :
  (general_node (before_classify "I have a fever")
   = (inr tt,
      mkMachine (mkAgentState
                   (fever_turn ++ [AIMessage (general_text "I have a fever")])
                   (Some "I have a fever") None) [])
   ∧ emergency_node (before_classify "I have a fever")
     = (inr tt,
        mkMachine (mkAgentState
                     (fever_turn ++ [AIMessage (emergency_text "I have a fever")])
                     (Some "I have a fever") None) []))
  ∧ (last (chat_history (state (snd (general_node (before_classify "I have a fever")))))
     = last (chat_history (state (snd (general_node
                (mkMachine (mkAgentState [] (Some "I have a fever")
                                         (Some "general")) [])))))
     ∧ last (chat_history (state (snd (emergency_node (before_classify "I have a fever")))))
       = last (chat_history (state (snd (emergency_node
                (mkMachine (mkAgentState [] (Some "I have a fever")
                                         (Some "general")) []))))))
  ∧ ∃ x, last [greeting; HumanMessage "I'm having chest pains"] = Some x
         ∧ invocations (snd (run_turn (scripted_llm [Some "Emergency"])
                               plain_render
                               [greeting; HumanMessage "I'm having chest pains"]))
           = [classify_input (content x)]
         ∧ last (chat_history (state (snd (run_turn (scripted_llm [Some "Emergency"])
                               plain_render
                               [greeting; HumanMessage "I'm having chest pains"]))))
           = Some (template_reply emergency (content x)).
Proof.
  split; [|split].
  - apply (proj1 (fixed_replies_without_llm (scripted_llm []) plain_render)
             (before_classify "I have a fever") "I have a fever").
    reflexivity.
  - apply (proj1 (proj2 (proj2 (proj2
             (fixed_replies_without_llm (scripted_llm []) plain_render))))
             (before_classify "I have a fever")
             (mkMachine (mkAgentState [] (Some "I have a fever")
                                      (Some "general")) [])
             "I have a fever"); reflexivity.
  - apply (proj2 (proj2 (proj2 (proj2
             (fixed_replies_without_llm (scripted_llm [Some "Emergency"])
                plain_render))))
             [greeting; HumanMessage "I'm having chest pains"]
             (snd (run_turn (scripted_llm [Some "Emergency"]) plain_render
                     [greeting; HumanMessage "I'm having chest pains"]))
             emergency).
    + reflexivity.
    + reflexivity.
    + discriminate.
Defined.

(** ** The symptom field *)

(** C9: after a turn, however it ends, the symptom is the content of the
    last message of the chat history the turn was started on (and absent
    when there was none); [get_symptom] sets it to that content, and
    [classify_symptom], the router and the three handlers leave the field
    as they found it, whether they return or raise. *)
Theorem symptom_set_once
    (llm : Llm) (render_history : list BaseMessage → string) :
  (∀ messages,
     symptom (state (snd (run_turn llm render_history messages)))
     = content <$> last messages)
  ∧ (∀ m, symptom (state (snd (get_symptom m)))
          = match last (chat_history (state m)) with
            | Some x => Some (content x)
            | None => symptom (state m)
            end)
  ∧ (∀ m, symptom (state (snd (classify_symptom llm m))) = symptom (state m))
  ∧ (∀ m, symptom (state (snd (symptom_router m))) = symptom (state m))
  ∧ (∀ m, symptom (state (snd (conditional_edge llm render_history m)))
          = symptom (state m))
  ∧ (∀ m, symptom (state (snd (general_node m))) = symptom (state m))
  ∧ (∀ m, symptom (state (snd (emergency_node m))) = symptom (state m))
  ∧ (∀ m, symptom (state (snd (mental_health_node llm render_history m)))
          = symptom (state m)).
Proof.
  assert (Hg : ∀ m, symptom (state (snd (general_node m))) = symptom (state m)).
  { intros m. unfold general_node. run_steps.
    now destruct (symptom (state m)) eqn:E. }
  assert (He : ∀ m, symptom (state (snd (emergency_node m))) = symptom (state m)).
  { intros m. unfold emergency_node. run_steps.
    now destruct (symptom (state m)) eqn:E. }
  assert (Hm : ∀ m, symptom (state (snd (mental_health_node llm render_history m)))
                    = symptom (state m)).
  { intros m. rewrite mental_health_node_eq.
    destruct (last _); [|reflexivity]. cbv zeta. now destruct (llm _ _). }
  assert (Hr : ∀ m, symptom (state (snd (symptom_router m))) = symptom (state m)).
  { intros m. unfold symptom_router. run_steps.
    now destruct (category (state m)). }
  repeat split; try assumption.
  - intros messages. rewrite run_turn_outcome. unfold turn_outcome.
    destruct (last messages) as [x|]; [|reflexivity]. cbv zeta.
    destruct (llm [] _); [|reflexivity].
    destruct (first_match _); try reflexivity.
    now destruct (llm [_] _).
  - intros m. rewrite get_symptom_eq. now destruct (last _).
  - intros m. unfold classify_symptom. run_steps.
    destruct (symptom (state m)) eqn:E; [|exact E].
    destruct (llm _ _); exact E.
  - intros m. unfold conditional_edge, symptom_router. run_steps.
    destruct (category (state m)) as [k|] eqn:E; [|reflexivity].
    destruct (path_map !! k) as [target|] eqn:Hk; [|reflexivity].
    apply path_map_targets in Hk as (c & -> & ->).
    rewrite run_node_handler. destruct c; cbn [handler]; auto.
Qed.

(** ** The classification annotation *)

(** C10, as stated, fails: the annotation appended for a "General"
    response begins "(Thinking... It seems", with a capital I; it is not
    the text with a lower-case "it". *)
Lemma annotation_has_capital_It :
  chat_history (state (snd (classify_symptom (scripted_llm [Some "General"])
                              (before_classify "I have a fever"))))
  = fever_turn
      ++ [AIMessage "(Thinking... It seems like this might be a general concern.)"]
  ∧ last (chat_history (state (snd (classify_symptom (scripted_llm [Some "General"])
                                      (before_classify "I have a fever")))))
    ≠ Some (AIMessage lowercase_general_annotation).
Proof. split; [reflexivity|discriminate]. Qed.

(** C10, amended: when [classify_symptom] returns it has appended exactly
    one message, assistant-authored, whose text is
    "(Thinking... It seems like this might be a {category} concern.)",
    where {category} is the stored category with every underscore replaced
    by a space: "general", "emergency" or "mental health". *)
Theorem annotation_text (llm : Llm) (m m' : Machine) :
  classify_symptom llm m = (inr tt, m') →
  ∃ c, category (state m') = Some (category_name c)
       ∧ chat_history (state m')
         = chat_history (state m)
             ++ [AIMessage ("(Thinking... It seems like this might be a "
                            +:+ Py.replace "_" " " (category_name c)
                            +:+ " concern.)")]
       ∧ Py.replace "_" " " (category_name c)
         = match c with
           | general => "general"
           | emergency => "emergency"
           | mental_health => "mental health"
           end.
Proof.
  intros H. apply classify_symptom_returns in H as (s & t & _ & _ & ->).
  exists (first_match (Py.lower (Py.strip t))).
  cbn [state category chat_history]. rewrite category_of_response_name.
  repeat split. now destruct (first_match _).
Qed.

Lemma annotation_text_witness :
  ∃ c, category (state (snd (classify_symptom (scripted_llm [Some "mental health"])
                               (before_classify "I feel anxious and sad"))))
       = Some (category_name c)
       ∧ chat_history (state (snd (classify_symptom (scripted_llm [Some "mental health"])
                                     (before_classify "I feel anxious and sad"))))
         = chat_history (state (before_classify "I feel anxious and sad"))
             ++ [AIMessage ("(Thinking... It seems like this might be a "
                            +:+ Py.replace "_" " " (category_name c)
                            +:+ " concern.)")]
       ∧ Py.replace "_" " " (category_name c)
         = match c with
           | general => "general"
           | emergency => "emergency"
           | mental_health => "mental health"
           end.
Proof.
  apply (annotation_text (scripted_llm [Some "mental health"])
           (before_classify "I feel anxious and sad")).
  reflexivity.
Defined.

(** ** Facts about the Python string operations *)

Lemma isspace_lower_char (c : ascii) :
  Py.isspace (Py.lower_char c) = Py.isspace c.
Proof.
  destruct c as [b0 b1 b2 b3 b4 b5 b6 b7].
  destruct b0, b1, b2, b3, b4, b5, b6, b7; reflexivity.
Qed.

Lemma lower_char_idem (c : ascii) :
  Py.lower_char (Py.lower_char c) = Py.lower_char c.
Proof.
  destruct c as [b0 b1 b2 b3 b4 b5 b6 b7].
  destruct b0, b1, b2, b3, b4, b5, b6, b7; reflexivity.
Qed.

Lemma lower_lstrip (s : string) :
  Py.lower (Py.lstrip s) = Py.lstrip (Py.lower s).
Proof.
  induction s as [|c r IH]; [reflexivity|]. simpl.
  rewrite isspace_lower_char. now destruct (Py.isspace c).
Qed.

Lemma lower_rstrip (s : string) :
  Py.lower (Py.rstrip s) = Py.rstrip (Py.lower s).
Proof.
  induction s as [|c r IH]; [reflexivity|]. simpl.
  rewrite <- IH, isspace_lower_char.
  destruct (Py.rstrip r); simpl; [now destruct (Py.isspace c)|reflexivity].
Qed.

Lemma lower_strip (s : string) :
  Py.lower (Py.strip s) = Py.strip (Py.lower s).
Proof. unfold Py.strip. now rewrite lower_rstrip, lower_lstrip. Qed.

Lemma lstrip_all_space (w : string) :
  all_space w = true → Py.lstrip w = EmptyString.
Proof.
  induction w as [|c r IH]; [reflexivity|]. simpl.
  intros [Hc Hr]%andb_true_iff. rewrite Hc. auto.
Qed.

Lemma rstrip_all_space (w : string) :
  all_space w = true → Py.rstrip w = EmptyString.
Proof.
  induction w as [|c r IH]; [reflexivity|]. simpl.
  intros [Hc Hr]%andb_true_iff. now rewrite (IH Hr), Hc.
Qed.

Lemma lstrip_app_space (w s : string) :
  all_space w = true → Py.lstrip (w +:+ s) = Py.lstrip s.
Proof.
  induction w as [|c r IH]; [reflexivity|]. simpl.
  intros [Hc Hr]%andb_true_iff. rewrite Hc. auto.
Qed.

Lemma rstrip_app_space (s w : string) :
  all_space w = true → Py.rstrip (s +:+ w) = Py.rstrip s.
Proof.
  intros Hw. induction s as [|c r IH]; simpl.
  - now apply rstrip_all_space.
  - now rewrite IH.
Qed.

Lemma strip_app_space (t w : string) :
  all_space w = true → Py.strip (t +:+ w) = Py.strip t.
Proof.
  intros Hw. unfold Py.strip. induction t as [|c r IH]; simpl.
  - change (EmptyString +:+ w) with w. now rewrite (lstrip_all_space w Hw).
  - destruct (Py.isspace c); [exact IH|].
    change (String c (r +:+ w)) with (String c r +:+ w).
    now apply rstrip_app_space.
Qed.

Lemma prefix_app (n b : string) : String.prefix n (n +:+ b) = true.
Proof.
  induction n as [|c r IH]; simpl; [now destruct b|].
  now destruct (ascii_dec c c).
Qed.

Lemma contains_prefix (n h : string) :
  String.prefix n h = true → Py.contains n h = true.
Proof. intros H. destruct h; cbn [Py.contains]; rewrite H; reflexivity. Qed.

Lemma contains_app_l (n a b : string) :
  Py.contains n b = true → Py.contains n (a +:+ b) = true.
Proof.
  intros H. induction a as [|c r IH]; [exact H|].
  change (String c r +:+ b) with (String c (r +:+ b)).
  cbn [Py.contains]. rewrite IH. apply orb_true_r.
Qed.

Lemma contains_middle (n a b : string) :
  Py.contains n (a +:+ n +:+ b) = true.
Proof. apply contains_app_l, contains_prefix, prefix_app. Qed.

(** ** Further properties of the classifier's parsing *)

(** X1: whitespace before and after the model's answer never changes the
    category [classify_symptom] stores for it. *)
Theorem category_ignores_surrounding_space (w1 t w2 : string) :
  all_space w1 = true → all_space w2 = true →
  category_of_response (w1 +:+ t +:+ w2) = category_of_response t.
Proof.
  intros H1 H2. unfold category_of_response.
  assert (E : Py.strip (w1 +:+ t +:+ w2) = Py.strip t).
  { unfold Py.strip. rewrite (lstrip_app_space w1 _ H1).
    now apply strip_app_space. }
  now rewrite E.
Qed.

Lemma category_ignores_surrounding_space_witness :
  category_of_response ((Py.newline +:+ " ") +:+ "Mental Health" +:+ (" " +:+ Py.newline))
  = category_of_response "Mental Health".
Proof.
  apply (category_ignores_surrounding_space
           (Py.newline +:+ " ") "Mental Health" (" " +:+ Py.newline));
    reflexivity.
Defined.

(** X2: two answers that read the same once lower-cased get the same
    category: the parsing does not look at letter case. *)
Theorem category_ignores_case (t1 t2 : string) :
  Py.lower t1 = Py.lower t2 →
  category_of_response t1 = category_of_response t2.
Proof.
  intros H. unfold category_of_response.
  now rewrite !lower_strip, H.
Qed.

Lemma category_ignores_case_witness :
  category_of_response "EMERGENCY" = category_of_response "Emergency".
Proof.
  apply (category_ignores_case "EMERGENCY" "Emergency"). reflexivity.
Defined.

(** ** What the fixed texts always contain *)

(** X3: when a turn returns with a category other than mental health, the
    last message of the chat history is an assistant message whose text
    contains, as a substring, the content of the message the turn was
    started on. *)
Theorem template_reply_quotes_symptom
    (llm : Llm) (render_history : list BaseMessage → string)
    (messages : list BaseMessage) (x : BaseMessage) (m' : Machine) :
  last messages = Some x →
  run_turn llm render_history messages = (inr tt, m') →
  category (state m') ≠ Some "mental_health" →
  ∃ reply, last (chat_history (state m')) = Some (AIMessage reply)
           ∧ Py.contains (content x) reply = true.
Proof.
  intros Hx. rewrite run_turn_outcome. unfold turn_outcome. rewrite Hx.
  cbv zeta. destruct (llm [] _) as [t|]; [|discriminate].
  destruct (first_match _).
  - intros [= <-] _. cbn [state chat_history]. rewrite last_snoc.
    eexists; split; [reflexivity|]. apply contains_middle.
  - intros [= <-] _. cbn [state chat_history]. rewrite last_snoc.
    eexists; split; [reflexivity|]. apply contains_middle.
  - destruct (llm [_] _); [|discriminate].
    intros [= <-]. cbn [state category category_name]. congruence.
Qed.

Lemma template_reply_quotes_symptom_witness :
  ∃ reply,
    last (chat_history (state (snd (run_turn (scripted_llm [Some "General"])
                                      plain_render fever_turn))))
    = Some (AIMessage reply)
    ∧ Py.contains (content (HumanMessage "I have a fever")) reply = true.
Proof.
  apply (template_reply_quotes_symptom (scripted_llm [Some "General"])
           plain_render fever_turn (HumanMessage "I have a fever")
           (snd (run_turn (scripted_llm [Some "General"]) plain_render
                   fever_turn))).
  - reflexivity.
  - reflexivity.
  - discriminate.
Defined.

(** X4: the classification prompt contains the symptom it is built from,
    and the persona prompt contains both the rendered chat history and the
    text it is given as the latest message, whatever these texts are. *)
Theorem prompts_embed_their_inputs :
  (∀ s, Py.contains s (classify_prompt s) = true)
  ∧ (∀ history_text latest,
       Py.contains history_text (aura_prompt history_text latest) = true
       ∧ Py.contains latest (aura_prompt history_text latest) = true).
Proof.
  split.
  - intros s. unfold classify_prompt.
    do 4 apply contains_app_l. apply contains_middle.
  - intros h l. unfold aura_prompt. split.
    + do 2 apply contains_app_l. apply contains_middle.
    + do 7 apply contains_app_l. apply contains_middle.
Qed.

(** X5: whatever the symptom text, the emergency reply names the three
    emergency numbers and the emergency room, and the general reply says
    that the assistant is not a medical professional and advises to consult
    a doctor. *)
Theorem replies_keep_their_advice (s : string) :
  (Py.contains "911" (emergency_text s) = true
   ∧ Py.contains "112" (emergency_text s) = true
   ∧ Py.contains "108" (emergency_text s) = true
   ∧ Py.contains "go to the nearest emergency room" (emergency_text s) = true)
  ∧ (Py.contains "not a medical professional" (general_text s) = true
     ∧ Py.contains "consult with a doctor" (general_text s) = true).
Proof.
  unfold emergency_text, general_text.
  repeat split; do 2 apply contains_app_l; reflexivity.
Qed.

(** ** Nodes run on states they were not prepared for *)

(** X6: on a state without the key ['symptom'], [classify_symptom],
    [general_node] and [emergency_node] raise [KeyError('symptom')]; no
    model call is made and nothing is appended. *)
Theorem nodes_need_symptom (llm : Llm) (m : Machine) :
  symptom (state m) = None →
  classify_symptom llm m = (inl (KeyError "symptom"), m)
  ∧ general_node m = (inl (KeyError "symptom"), m)
  ∧ emergency_node m = (inl (KeyError "symptom"), m).
Proof.
  intros H. unfold classify_symptom, general_node, emergency_node.
  run_steps. now rewrite H.
Qed.

Lemma nodes_need_symptom_witness :
  classify_symptom (constant_llm "General")
    (mkMachine (mkAgentState fever_turn None None) [])
  = (inl (KeyError "symptom"), mkMachine (mkAgentState fever_turn None None) [])
  ∧ general_node (mkMachine (mkAgentState fever_turn None None) [])
    = (inl (KeyError "symptom"), mkMachine (mkAgentState fever_turn None None) [])
  ∧ emergency_node (mkMachine (mkAgentState fever_turn None None) [])
    = (inl (KeyError "symptom"), mkMachine (mkAgentState fever_turn None None) []).
Proof.
  apply (nodes_need_symptom (constant_llm "General")
           (mkMachine (mkAgentState fever_turn None None) [])).
  reflexivity.
Defined.

(** X7: on an empty chat history [get_symptom] and [mental_health_node]
    raise [IndexError]; the state is left as it was and the model is not
    called. *)
Theorem empty_history_index_error
    (llm : Llm) (render_history : list BaseMessage → string) (m : Machine) :
  chat_history (state m) = [] →
  get_symptom m = (inl IndexError, m)
  ∧ mental_health_node llm render_history m = (inl IndexError, m).
Proof.
  intros H. rewrite get_symptom_eq, mental_health_node_eq, H. now split.
Qed.

Lemma empty_history_index_error_witness :
  get_symptom (mkMachine (mkAgentState [] None None) [])
  = (inl IndexError, mkMachine (mkAgentState [] None None) [])
  ∧ mental_health_node (constant_llm "Hello") plain_render
      (mkMachine (mkAgentState [] None None) [])
    = (inl IndexError, mkMachine (mkAgentState [] None None) []).
Proof.
  apply (empty_history_index_error (constant_llm "Hello") plain_render
           (mkMachine (mkAgentState [] None None) [])).
  reflexivity.
Defined.

Lemma path_map_other (k : string) :
  k ≠ "general" → k ≠ "emergency" → k ≠ "mental_health" →
  path_map !! k = None.
Proof.
  intros Hg He Hm. unfold path_map.
  rewrite !lookup_insert_ne by congruence.
  apply lookup_singleton_ne. congruence.
Qed.

(** X8: the mapping of the conditional edge has entries for "general",
    "emergency" and "mental_health" only: with any other category stored,
    the branch after [classify] raises [KeyError] on that category, runs no
    handler, calls no model and leaves the state as it was. *)
Theorem conditional_edge_rejects_other
    (llm : Llm) (render_history : list BaseMessage → string)
    (m : Machine) (k : string) :
  category (state m) = Some k →
  k ≠ "general" → k ≠ "emergency" → k ≠ "mental_health" →
  path_map !! k = None
  ∧ conditional_edge llm render_history m = (inl (KeyError k), m).
Proof.
  intros Hk Hg He Hm.
  assert (Hp := path_map_other k Hg He Hm). split; [exact Hp|].
  unfold conditional_edge, symptom_router. run_steps.
  now rewrite Hk, Hp.
Qed.

Lemma conditional_edge_rejects_other_witness :
  path_map !! "mental health" = None
  ∧ conditional_edge (constant_llm "Hello") plain_render
      (mkMachine (mkAgentState anxious_turn (Some "I feel anxious and sad")
                               (Some "mental health")) [])
    = (inl (KeyError "mental health"),
       mkMachine (mkAgentState anxious_turn (Some "I feel anxious and sad")
                               (Some "mental health")) []).
Proof.
  apply (conditional_edge_rejects_other (constant_llm "Hello") plain_render
           (mkMachine (mkAgentState anxious_turn (Some "I feel anxious and sad")
                                    (Some "mental health")) [])
           "mental health"); [reflexivity|discriminate..].
Defined.

(** ** Bounds on what one turn does *)

(** X9: a turn calls the model at most twice, and not at all exactly when
    the chat history is empty; when it calls twice, the stored category is
    "mental_health". *)
Theorem turn_calls_at_most_twice
    (llm : Llm) (render_history : list BaseMessage → string)
    (messages : list BaseMessage) :
  (length (invocations (snd (run_turn llm render_history messages))) ≤ 2)%nat
  ∧ (invocations (snd (run_turn llm render_history messages)) = []
     ↔ messages = [])
  ∧ (length (invocations (snd (run_turn llm render_history messages))) = 2 →
     category (state (snd (run_turn llm render_history messages)))
     = Some "mental_health").
Proof.
  rewrite run_turn_outcome. unfold turn_outcome.
  destruct (last messages) as [x|] eqn:Hx.
  - assert (messages ≠ []) by (intros ->; discriminate).
    cbv zeta. destruct (llm [] _) as [t|].
    + destruct (first_match _); [| |destruct (llm [_] _)];
        cbn; repeat split; try lia; try discriminate; try contradiction.
    + cbn. repeat split; try lia; try discriminate; try contradiction.
  - apply last_None in Hx as ->. cbn. repeat split; try lia; discriminate.
Qed.

Lemma turn_calls_at_most_twice_witness :
  category (state (snd (run_turn (scripted_llm [Some "Mental Health"; Some persona_reply])
                          plain_render anxious_turn)))
  = Some "mental_health".
Proof.
  apply (proj2 (proj2 (turn_calls_at_most_twice
                         (scripted_llm [Some "Mental Health"; Some persona_reply])
                         plain_render anxious_turn))).
  reflexivity.
Defined.

Lemma run_turn_appended
    (llm : Llm) (render_history : list BaseMessage → string)
    (messages : list BaseMessage) :
  ∃ added,
    chat_history (state (snd (run_turn llm render_history messages)))
    = messages ++ added
    ∧ (length added ≤ 2)%nat
    ∧ Forall (λ a, is_human a = false) added.
Proof.
  rewrite run_turn_outcome. unfold turn_outcome.
  destruct (last messages) as [x|];
    [|exists []; cbn; rewrite app_nil_r; auto].
  cbv zeta. destruct (llm [] _) as [t|];
    [|exists []; cbn; rewrite app_nil_r; auto].
  destruct (first_match _); [| |destruct (llm [_] _)];
    cbn [snd state chat_history]; rewrite <- ?app_assoc;
    eexists; (split; [reflexivity|]); cbn; split; try lia;
    repeat constructor.
Qed.

(** X10: however a turn ends, the chat history it leaves is the prior one
    followed by at most two messages, all of them assistant messages: a
    turn never removes or changes a message and never adds a user
    message. *)
Theorem turn_only_appends_assistant_messages
    (llm : Llm) (render_history : list BaseMessage → string)
    (messages : list BaseMessage) :
  ∃ added,
    chat_history (state (snd (run_turn llm render_history messages)))
    = messages ++ added
    ∧ (length added ≤ 2)%nat
    ∧ Forall (λ a, is_human a = false) added.
Proof. apply run_turn_appended. Qed.

Lemma run_turn_error_kinds
    (llm : Llm) (render_history : list BaseMessage → string)
    (messages : list BaseMessage) :
  (∀ k, fst (run_turn llm render_history messages) ≠ inl (KeyError k))
  ∧ (fst (run_turn llm render_history messages) = inl IndexError
     ↔ messages = []).
Proof.
  rewrite run_turn_outcome. unfold turn_outcome.
  destruct (last messages) as [x|] eqn:Hx.
  - assert (messages ≠ []) by (intros ->; discriminate).
    cbv zeta. destruct (llm [] _) as [t|].
    + destruct (first_match _); [| |destruct (llm [_] _)];
        cbn; repeat split; try discriminate; try contradiction.
    + cbn. repeat split; try discriminate; try contradiction.
  - apply last_None in Hx as ->. cbn. repeat split; discriminate.
Qed.

(** X11: a turn never ends in a [KeyError]: each node finds the keys the
    earlier nodes were to set, and the router's result is always in the
    mapping of the conditional edge.  It ends in [IndexError] exactly when
    the chat history is empty. *)
Theorem turn_fails_only_on_model
    (llm : Llm) (render_history : list BaseMessage → string)
    (messages : list BaseMessage) :
  (∀ k, fst (run_turn llm render_history messages) ≠ inl (KeyError k))
  ∧ (fst (run_turn llm render_history messages) = inl IndexError
     ↔ messages = []).
Proof. apply run_turn_error_kinds. Qed.

Lemma turn_fails_only_on_model_witness :
  fst (run_turn (constant_llm "General") plain_render []) = inl IndexError.
Proof.
  apply (proj2 (turn_fails_only_on_model (constant_llm "General")
                  plain_render [])).
  reflexivity.
Defined.

(** X12: two turns with the same model on chat histories whose last
    messages have the same content store the same category; and unless it
    is "mental_health" they append the same messages: earlier messages and
    the author of the last one play no part. *)
Theorem turn_reads_last_content_only
    (llm : Llm) (render_history : list BaseMessage → string)
    (messages1 messages2 : list BaseMessage) :
  content <$> last messages1 = content <$> last messages2 →
  category (state (snd (run_turn llm render_history messages1)))
  = category (state (snd (run_turn llm render_history messages2)))
  ∧ (category (state (snd (run_turn llm render_history messages1)))
     ≠ Some "mental_health" →
     ∃ added,
       chat_history (state (snd (run_turn llm render_history messages1)))
       = messages1 ++ added
       ∧ chat_history (state (snd (run_turn llm render_history messages2)))
         = messages2 ++ added).
Proof.
  rewrite !run_turn_outcome. unfold turn_outcome.
  destruct (last messages1) as [x1|], (last messages2) as [x2|];
    try discriminate.
  - intros [= E]. cbv zeta. rewrite <- E.
    destruct (llm [] _) as [t|].
    + destruct (first_match _).
      * cbn [snd state category chat_history]. split; [reflexivity|].
        intros _. rewrite <- !app_assoc. eexists; split; reflexivity.
      * cbn [snd state category chat_history]. split; [reflexivity|].
        intros _. rewrite <- !app_assoc. eexists; split; reflexivity.
      * split.
        -- now destruct (llm [_] _), (llm [_] _).
        -- destruct (llm [_] _); cbn [snd state category category_name];
             congruence.
    + cbn. split; [reflexivity|]. intros _. exists [].
      now rewrite !app_nil_r.
  - intros _. cbn. split; [reflexivity|]. intros _. exists [].
    now rewrite !app_nil_r.
Qed.

Lemma turn_reads_last_content_only_witness :
  category (state (snd (run_turn (constant_llm "Emergency") plain_render
                          [HumanMessage "It hurts"])))
  = category (state (snd (run_turn (constant_llm "Emergency") plain_render
                            [greeting; HumanMessage "Hi"; AIMessage "It hurts"])))
  ∧ (category (state (snd (run_turn (constant_llm "Emergency") plain_render
                             [HumanMessage "It hurts"])))
     ≠ Some "mental_health" →
     ∃ added,
       chat_history (state (snd (run_turn (constant_llm "Emergency") plain_render
                                   [HumanMessage "It hurts"])))
       = [HumanMessage "It hurts"] ++ added
       ∧ chat_history (state (snd (run_turn (constant_llm "Emergency") plain_render
                                     [greeting; HumanMessage "Hi";
                                      AIMessage "It hurts"])))
         = [greeting; HumanMessage "Hi"; AIMessage "It hurts"] ++ added).
Proof.
  apply (turn_reads_last_content_only (constant_llm "Emergency") plain_render
           [HumanMessage "It hurts"]
           [greeting; HumanMessage "Hi"; AIMessage "It hurts"]).
  reflexivity.
Defined.

(** ** The Streamlit script *)

Lemma script_with_prompt (llm : Llm) (render_history : list BaseMessage → string)
    (session : option (list BaseMessage)) (p : string) :
  str_truth p = true →
  script (Some llm) render_history session (Some p)
  = let messages := default [greeting] session ++ [HumanMessage p] in
    let drawn := (draw <$> default [greeting] session) ++ [ChatWrite "user" p] in
    match run_turn llm render_history messages with
    | (inr _, final) =>
        match last (chat_history (state final)) with
        | Some reply =>
            mkPage (Some (chat_history (state final)))
                   (drawn ++ [ChatWrite "ai" (content reply)]) None
                   (invocations final)
        | None =>
            mkPage (Some (chat_history (state final))) drawn (Some IndexError)
                   (invocations final)
        end
    | (inl e, final) =>
        mkPage (Some (chat_history (state final))) drawn (Some e)
               (invocations final)
    end.
Proof. intros H. unfold script. now rewrite H. Qed.

Lemma script_without_prompt (llm : Llm)
    (render_history : list BaseMessage → string)
    (session : option (list BaseMessage)) (chat_input : option string) :
  match chat_input with Some p => str_truth p = false | None => True end →
  script (Some llm) render_history session chat_input
  = mkPage (Some (default [greeting] session))
           (draw <$> default [greeting] session) None [].
Proof.
  intros H. unfold script. destruct chat_input as [p|]; [|reflexivity].
  now rewrite H.
Qed.

(** X13: a run with a non-empty chat input and a model that answers every
    call ends without exception; the session then holds the earlier
    messages followed by the user's message, the classifier's annotation
    and the reply; the run draws the earlier messages, the user's message
    and the reply, but not the annotation. *)
Theorem script_answers_prompt
    (llm : Llm) (render_history : list BaseMessage → string)
    (session : option (list BaseMessage)) (p : string) :
  p ≠ EmptyString →
  (∀ made input, llm made input ≠ None) →
  ∃ c reply,
    messages_after (script (Some llm) render_history session (Some p))
    = Some (default [greeting] session
              ++ [HumanMessage p; annotation c; AIMessage reply])
    ∧ elements (script (Some llm) render_history session (Some p))
      = (draw <$> default [greeting] session)
          ++ [ChatWrite "user" p; ChatWrite "ai" reply]
    ∧ uncaught (script (Some llm) render_history session (Some p)) = None.
Proof.
  intros Hp Hllm.
  rewrite script_with_prompt by now destruct p.
  cbv zeta. rewrite run_turn_outcome. unfold turn_outcome.
  rewrite last_snoc. cbv zeta. cbn [content].
  destruct (llm [] _) as [t|] eqn:Ht; [|now apply Hllm in Ht].
  destruct (first_match _).
  - exists general, (general_text p). cbn [state chat_history].
    rewrite last_snoc. cbn [messages_after elements uncaught content].
    now rewrite <- !app_assoc.
  - exists emergency, (emergency_text p). cbn [state chat_history].
    rewrite last_snoc. cbn [messages_after elements uncaught content].
    now rewrite <- !app_assoc.
  - destruct (llm [_] _) as [r|] eqn:Hr; [|now apply Hllm in Hr].
    exists mental_health, r. cbn [state chat_history].
    rewrite last_snoc. cbn [messages_after elements uncaught content].
    now rewrite <- !app_assoc.
Qed.

Lemma script_answers_prompt_witness :
  ∃ c reply,
    messages_after (script (Some (constant_llm "General")) plain_render None
                      (Some "I have a fever"))
    = Some (default [greeting] None
              ++ [HumanMessage "I have a fever"; annotation c; AIMessage reply])
    ∧ elements (script (Some (constant_llm "General")) plain_render None
                  (Some "I have a fever"))
      = (draw <$> default [greeting] None)
          ++ [ChatWrite "user" "I have a fever"; ChatWrite "ai" reply]
    ∧ uncaught (script (Some (constant_llm "General")) plain_render None
                  (Some "I have a fever")) = None.
Proof.
  apply (script_answers_prompt (constant_llm "General") plain_render None
           "I have a fever"); discriminate.
Defined.



Lemma filter_assistant_only (l : list BaseMessage) :
  Forall (λ a, is_human a = false) l → List.filter is_human l = [].
Proof.
  induction 1 as [|a l Ha _ IH]; [reflexivity|]. simpl. now rewrite Ha.
Qed.

Lemma user_texts_app (a b : list BaseMessage) :
  user_texts (a ++ b) = user_texts a ++ user_texts b.
Proof. unfold user_texts. now rewrite List.filter_app, fmap_app. Qed.

(** What one run of the script does to the session entry. *)
Lemma script_session (client : option Llm)
    (render_history : list BaseMessage → string)
    (session : option (list BaseMessage)) (chat_input : option string) :
  match client with
  | None =>
      messages_after (script client render_history session chat_input)
      = session
  | Some _ =>
      ∃ added,
        messages_after (script client render_history session chat_input)
        = Some (default [greeting] session ++ added)
        ∧ user_texts added
          = match chat_input with
            | Some p => if str_truth p then [p] else []
            | None => []
            end
  end.
Proof.
  destruct client as [llm|]; [|reflexivity].
  destruct chat_input as [p|];
    [|exists []; rewrite script_without_prompt, app_nil_r; auto].
  destruct (str_truth p) eqn:Hp;
    [|exists []; rewrite script_without_prompt, app_nil_r; auto].
  rewrite script_with_prompt by exact Hp. cbv zeta.
  destruct (run_turn_appended llm render_history
              (default [greeting] session ++ [HumanMessage p]))
    as (added & Hh & _ & Hai).
  exists ([HumanMessage p] ++ added). split.
  - destruct (run_turn _ _ _) as [[e|u] final]; cbn [snd] in Hh.
    + cbn [messages_after]. now rewrite Hh, <- app_assoc.
    + destruct (last _); cbn [messages_after]; now rewrite Hh, <- app_assoc.
  - rewrite user_texts_app. unfold user_texts at 2.
    now rewrite (filter_assistant_only added Hai).
Qed.

(** X15: whatever the client, the session and the chat input, a run of the
    script ends without exception or with the model's: the interface never
    starts a turn that fails on an empty chat history or a missing key. *)
Theorem script_raises_only_model_errors
    (client : option Llm) (render_history : list BaseMessage → string)
    (session : option (list BaseMessage)) (chat_input : option string) :
  uncaught (script client render_history session chat_input) = None
  ∨ uncaught (script client render_history session chat_input)
    = Some LlmError.
Proof.
  destruct client as [llm|]; [|now left].
  destruct chat_input as [p|]; [|rewrite script_without_prompt; auto].
  destruct (str_truth p) eqn:Hp; [|rewrite script_without_prompt; auto].
  rewrite script_with_prompt by exact Hp. cbv zeta.
  pose proof (run_turn_error_kinds llm render_history
                (default [greeting] session ++ [HumanMessage p]))
    as [Hkey Hindex].
  destruct (run_turn_appended llm render_history
              (default [greeting] session ++ [HumanMessage p]))
    as (added & Hh & _).
  destruct (run_turn _ _ _) as [[e|u] final]; cbn [fst snd] in *.
  - right. destruct e as [|k|]; cbn [uncaught].
    + destruct Hindex as [Hindex _].
      now destruct (app_cons_not_nil _ _ _ (eq_sym (Hindex eq_refl))).
    + now destruct (Hkey k).
    + reflexivity.
  - destruct (last _) eqn:Hl; [now left|].
    apply last_None in Hl. rewrite Hh, <- app_assoc in Hl.
    now destruct (app_cons_not_nil _ _ _ (eq_sym Hl)).
Qed.

(** X16: over any series of runs from a new session, the session entry is
    either still absent or a list whose first message is the greeting. *)
Theorem session_starts_with_greeting
    (render_history : list BaseMessage → string)
    (runs : list (option Llm * option string)) :
  session_after render_history None runs = None
  ∨ ∃ rest, session_after render_history None runs = Some (greeting :: rest).
Proof.
  assert (H : ∀ session,
             (session = None ∨ ∃ rest, session = Some (greeting :: rest)) →
             session_after render_history session runs = None
             ∨ ∃ rest, session_after render_history session runs
                       = Some (greeting :: rest)).
  { induction runs as [|[client chat_input] runs IH]; intros session Hs;
      [exact Hs|].
    cbn [session_after]. apply IH.
    pose proof (script_session client render_history session chat_input) as H.
    destruct client as [llm|]; [|now rewrite H].
    destruct H as (added & -> & _). right.
    destruct Hs as [->|[rest ->]]; cbn [from_option id]; eexists; reflexivity. }
  apply H. now left.
Qed.

(** X17: over any series of runs from a new session, the user messages in
    the session entry are, in order, exactly the non-empty chat inputs of
    the runs that had a client, each once, whether its turn returned or
    raised. *)
Theorem session_records_every_prompt
    (render_history : list BaseMessage → string)
    (runs : list (option Llm * option string)) :
  user_texts (default [] (session_after render_history None runs))
  = submitted runs.
Proof.
  assert (H : ∀ session,
             user_texts (default [] (session_after render_history session runs))
             = user_texts (default [] session) ++ submitted runs).
  { induction runs as [|[client chat_input] runs IH]; intros session;
      [now rewrite app_nil_r|].
    cbn [session_after]. rewrite IH.
    pose proof (script_session client render_history session chat_input) as H.
    destruct client as [llm|].
    - destruct H as (added & -> & Hu). cbn [from_option id].
      rewrite user_texts_app, Hu, <- app_assoc. f_equal.
      + now destruct session.
      + cbn [submitted]. destruct chat_input as [p|]; [|reflexivity].
        now destruct (str_truth p).
    - rewrite H. cbn [submitted]. now destruct chat_input. }
  apply H.
Qed.

(** X18: once the session entry exists, no series of runs removes or
    changes a message in it: the entry afterwards is the earlier list
    followed by the messages added since. *)
Theorem session_is_append_only
    (render_history : list BaseMessage → string)
    (runs : list (option Llm * option string)) (l : list BaseMessage) :
  ∃ added, session_after render_history (Some l) runs = Some (l ++ added).
Proof.
  revert l. induction runs as [|[client chat_input] runs IH]; intros l.
  - exists []. now rewrite app_nil_r.
  - cbn [session_after].
    pose proof (script_session client render_history (Some l) chat_input) as H.
    destruct client as [llm|].
    + destruct H as (added & -> & _). cbn [from_option id].
      destruct (IH (l ++ added)) as (more & ->).
      exists (added ++ more). now rewrite app_assoc.
    + rewrite H. apply IH.
Qed.

(** ** Trimming and the substring tests *)

Lemma prefix_empty_r (n : string) :
  String.prefix n EmptyString = match n with EmptyString => true | _ => false end.
Proof. now destruct n. Qed.

Lemma contains_empty_r (n : string) :
  Py.contains n EmptyString = match n with EmptyString => true | _ => false end.
Proof. cbn [Py.contains]. rewrite prefix_empty_r. now destruct n. Qed.

Lemma contains_lstrip (n t : string) :
  starts_visible n = true → Py.contains n (Py.lstrip t) = Py.contains n t.
Proof.
  intros Hn. induction t as [|c r IH]; [reflexivity|].
  cbn [Py.lstrip]. destruct (Py.isspace c) eqn:Hc; [|reflexivity].
  rewrite IH. cbn [Py.contains].
  destruct n as [|a n']; [discriminate|]. cbn [String.prefix].
  destruct (ascii_dec a c) as [->|]; [|reflexivity].
  cbn in Hn. now rewrite Hc in Hn.
Qed.

Lemma prefix_rstrip (n t : string) :
  ends_visible n = true →
  String.prefix n (Py.rstrip t) = String.prefix n t.
Proof.
  revert n. induction t as [|c r IH]; intros n Hn; [reflexivity|].
  destruct n as [|a n']; [discriminate|].
  destruct n' as [|b n''].
  - cbn in Hn. cbn [Py.rstrip].
    destruct (Py.rstrip r) as [|d r'] eqn:Hr;
      [destruct (Py.isspace c) eqn:Hc|]; cbn [String.prefix];
      destruct (ascii_dec a c) as [->|]; try reflexivity;
      try (now destruct r); now rewrite Hc in Hn.
  - assert (Hn' : ends_visible (String b n'') = true) by exact Hn.
    specialize (IH _ Hn'). cbn [Py.rstrip].
    destruct (Py.rstrip r) as [|d r'] eqn:Hr.
    + destruct (Py.isspace c); cbn [String.prefix];
        destruct (ascii_dec a c); try reflexivity; rewrite <- IH;
        now rewrite ?prefix_empty_r.
    + cbn [String.prefix]. destruct (ascii_dec a c); [exact IH|reflexivity].
Qed.

Lemma contains_rstrip_cons (n : string) (c : ascii) (r : string) :
  Py.contains n (Py.rstrip (String c r))
  = String.prefix n (Py.rstrip (String c r)) || Py.contains n (Py.rstrip r).
Proof.
  cbn [Py.rstrip]. destruct (Py.rstrip r) as [|d r'].
  - destruct (Py.isspace c); cbn [Py.contains]; [|reflexivity].
    now destruct (String.prefix n EmptyString).
  - reflexivity.
Qed.

Lemma contains_rstrip (n t : string) :
  ends_visible n = true → Py.contains n (Py.rstrip t) = Py.contains n t.
Proof.
  intros Hn. induction t as [|c r IH]; [reflexivity|].
  rewrite contains_rstrip_cons, IH, (prefix_rstrip n _ Hn). reflexivity.
Qed.

Lemma contains_strip (n t : string) :
  starts_visible n = true → ends_visible n = true →
  Py.contains n (Py.strip t) = Py.contains n t.
Proof.
  intros Hs He. unfold Py.strip.
  now rewrite (contains_rstrip n _ He), (contains_lstrip n _ Hs).
Qed.

(** X19: the category stored for an answer is decided by the lower-cased
    answer alone: the three words tested begin and end with a letter, so
    trimming the answer first changes none of the tests. *)
Theorem category_decided_by_lowered_text (t : string) :
  category_of_response t = category_name (first_match (Py.lower t)).
Proof.
  unfold category_of_response, first_match.
  rewrite lower_strip, !contains_strip by reflexivity.
  repeat case_match; reflexivity.
Qed.
